(** * saltext.vmware_vsphere.modules.vmware_firewall

    A shallow embedding of the two execution-module functions of
    [vmware_firewall.py], [get_firewall_status] and
    [enable_firewall_ruleset], with the properties of how their calls
    end; and of the module's initialisation, which computes
    [HAS_PYVMOMI].

    Modelling choices.
    - The result dictionaries are finite maps keyed by host name
      ([gmap string _]); [ret.update({k: v})] is map insertion.
    - The remote-execution helper [salt.utils.vmware.esxcli] belongs to the
      Salt library, not to this module.  It is a Section variable acting on
      an abstract remote world; an invocation would be appended to a trace,
      so that the trace tells whether the helper was reached.
    - Python raises [NameError] when a global name has no binding.  Global
      names are resolved against the names the module's own statements bind
      and the builtins.  The module imports [saltext.vmware.utils.vmware]
      and two decorators from [salt.utils.decorators]: neither statement
      binds the name [salt], which the two functions use to reach the
      helper. *)

From Stdlib Require Import ZArith.
From stdpp Require Import base strings gmap list pretty.

Local Open Scope Z_scope.

(** ** Python values reaching the two functions *)

(** Scalars a caller can pass for [ruleset_enable], or by mistake for
    [esxi_hosts]. *)
Inductive scalar : Type :=
| PyNone
| PyBool (b : bool)
| PyInt (n : Z)
| PyStr (s : string).

(** The [esxi_hosts] argument: absent ([Scalar PyNone]), some other scalar,
    a list of host names, or a tuple of host names. *)
Inductive pyarg : Type :=
| Scalar (v : scalar)
| PyList (l : list string)
| PyTuple (l : list string).

(** Truth value testing, as in [if esxi_hosts:]. *)
Definition scalar_truthy (v : scalar) : bool :=
  match v with
  | PyNone => false
  | PyBool b => b
  | PyInt n => negb (n =? 0)
  | PyStr s => negb (String.eqb s "")
  end.

Definition truthy (v : pyarg) : bool :=
  match v with
  | Scalar s => scalar_truthy s
  | PyList l => negb (bool_decide (l = []))
  | PyTuple l => negb (bool_decide (l = []))
  end.

(** [isinstance(v, list)]. *)
Definition isinstance_list (v : pyarg) : bool :=
  match v with
  | PyList _ => true
  | _ => false
  end.

(** What a [{}] replacement field of [str.format] renders for a scalar. *)
Definition py_format (v : scalar) : string :=
  match v with
  | PyNone => "None"
  | PyBool true => "True"
  | PyBool false => "False"
  | PyInt n => pretty n
  | PyStr s => s
  end.

(** Python's [needle in haystack] on strings. *)
Fixpoint contains (needle haystack : string) : bool :=
  String.prefix needle haystack ||
  match haystack with
  | EmptyString => false
  | String _ rest => contains needle rest
  end.

(** ** The remote-execution helper's interface *)

(** Arguments of one [esxcli(host, user, pwd, cmd, protocol=, port=,
    esxi_host=, credstore=)] invocation. *)
Record EsxcliCall : Type := mkCall {
  c_host : string;
  c_user : string;
  c_pwd : string;
  c_cmd : string;
  c_protocol : option string;
  c_port : option Z;
  c_esxi_host : option string;
  c_credstore : option string
}.

(** The record the helper answers with. *)
Record Response : Type := mkResponse {
  retcode : Z;
  stdout : string;
  stderr : string
}.

(** ** Payloads of [get_firewall_status] *)

Record ruleset : Type := mkRuleset {
  name : string;
  enabled : bool
}.

(** The per-host dictionary.  [Error = None] stands for a dictionary without
    the ["Error"] key, [rulesets = None] for the value [None]. *)
Record status_payload : Type := mkStatus {
  Error : option string;
  success : bool;
  rulesets : option (list ruleset)
}.

(** ** The module's global namespace *)

(** Names bound by the module's top-level statements (lines 1-45 and 151),
    together with the module attributes every module has. *)
Definition module_globals : list string :=
  [ "__name__"; "__doc__"; "__file__"; "__builtins__";
    "logging"; "sys"; "saltext"; "depends"; "ignores_kwargs"; "log";
    "vim"; "vmodl"; "pbm"; "VmomiSupport"; "HAS_PYVMOMI";
    "__virtualname__"; "__virtual__";
    "get_firewall_status"; "enable_firewall_ruleset" ].

(** Builtins the module mentions. *)
Definition python_builtins : list string :=
  [ "isinstance"; "list"; "ImportError"; "None"; "True"; "False" ].

(** A global name resolves when the module or the builtins bind it. *)
Definition is_bound (n : string) : bool :=
  bool_decide (n ∈ module_globals ++ python_builtins).

(** ** Exceptions and the execution monad *)

Inductive exn : Type :=
| NameError (n : string)
| CommandExecutionError (msg : string).

Inductive outcome (A : Type) : Type :=
| Return (a : A)
| Raise (e : exn).
Arguments Return {A} a.
Arguments Raise {A} e.

(** ** Module initialisation (lines 10-41) *)

(** Elements of [sys.version_info] and of the tuples it is compared with. *)
Inductive elem : Type :=
| EInt (n : Z)
| EStr (s : string).

(** [x == y], which never raises. *)
Definition elem_eqb (x y : elem) : bool :=
  match x, y with
  | EInt a, EInt b => a =? b
  | EStr a, EStr b => String.eqb a b
  | _, _ => false
  end.

(** [x < y]; [None] is the [TypeError] of ordering an integer against a
    string. *)
Definition elem_lt (x y : elem) : option bool :=
  match x, y with
  | EInt a, EInt b => Some (a <? b)
  | EStr a, EStr b => Some (String.ltb a b)
  | _, _ => None
  end.

(** Tuple ordering [a < b]: the first pair of unequal elements decides; if
    there is none the shorter tuple is the smaller. *)
Fixpoint tuple_lt (a b : list elem) : option bool :=
  match a, b with
  | _, [] => Some false
  | [], _ :: _ => Some true
  | x :: a', y :: b' => if elem_eqb x y then tuple_lt a' b' else elem_lt x y
  end.

(** [a > b] on tuples. *)
Definition tuple_gt (a b : list elem) : option bool := tuple_lt b a.

(** What the module finds when it is imported: whether
    [from pyVmomi import ...] succeeds, and then the keys and values of
    [VmomiSupport.versionMap]; and [sys.version_info]. *)
Record interpreter : Type := mkInterpreter {
  pyVmomi : option (gmap string string);
  version_info : list elem
}.

(** Lines 22-26, the condition of the [if], with the short circuit of
    [and]. *)
Definition incompatible_python (versionMap : gmap string string)
    (vi : list elem) : option bool :=
  if bool_decide (is_Some (versionMap !! "vim25/6.0")) then
    match tuple_gt vi [EInt 2; EInt 7] with
    | Some true => tuple_lt vi [EInt 2; EInt 7; EInt 9]
    | other => other
    end
  else Some false.

Definition incompatible_message : string :=
  "pyVmomi not loaded: Incompatible versions of Python. See Issue #29537.".

(** Lines 10-34: the value given to [HAS_PYVMOMI] and the lines sent to
    [log.debug].  [None] is an exception other than [ImportError] leaving
    the [try] statement. *)
Definition module_init (py : interpreter) : option (bool * list string) :=
  match pyVmomi py with
  | None => Some (false, [])
  | Some versionMap =>
      match incompatible_python versionMap (version_info py) with
      | None => None
      | Some true => Some (false, [incompatible_message])
      | Some false => Some (true, [])
      end
  end.

(** Lines 37-41. *)
Definition __virtualname__ : string := "vmware_datacenter".

Definition __virtual__ (_ : unit) : string := __virtualname__.

(** Two interpreters: CPython 3.10 and CPython 2.7.5, each with a pyVmomi
    that knows vSphere 6.0. *)
Definition vsphere_6_versions : gmap string string :=
  {[ "vim25/5.5" := "vim.version.version9";
     "vim25/6.0" := "vim.version.version10" ]}.

Definition python_3_10 : interpreter :=
  mkInterpreter (Some vsphere_6_versions)
    [EInt 3; EInt 10; EInt 4; EStr "final"; EInt 0].

Definition python_2_7_5 : interpreter :=
  mkInterpreter (Some vsphere_6_versions)
    [EInt 2; EInt 7; EInt 5; EStr "final"; EInt 0].

(** ** Sample remote worlds *)

Definition newline : string := String (Ascii.ascii_of_nat 10) "".

(** The listing of a reachable host and the answer of an unreachable one. *)
Definition listing_ok : Response :=
  mkResponse 0
    ("Name Enabled" +:+ newline +:+ "syslog true" +:+ newline +:+
     "sshServer false" +:+ newline)
    "".

Definition unreachable : Response :=
  mkResponse 1 "Error: unreachable" "".

(** A helper that answers [r] whatever it is asked. *)
Definition constant_esxcli (r : Response) : EsxcliCall → unit → Response * unit :=
  λ _ w, (r, w).

(** A helper for which target ["A"] is reachable and nothing else is. *)
Definition esxcli_A_up : EsxcliCall → unit → Response * unit :=
  λ c w, if bool_decide (c_esxi_host c = Some "A")
         then (listing_ok, w) else (unreachable, w).

(** A formatter to instantiate [_format_firewall_stdout] with. *)
Definition sample_format : Response → status_payload :=
  λ _, mkStatus None true (Some []).

Section Firewall.

(** The remote world and the helper acting on it. *)
Variable W : Type.
Variable esxcli : EsxcliCall → W → Response * W.

(** Denotation of the global [_format_firewall_stdout], should the
    namespace bind it. *)
Variable format_firewall_stdout : Response → status_payload.

(** Machine state: the remote world and the invocations made so far. *)
Record machine : Type := mkMachine {
  world : W;
  trace : list EsxcliCall
}.

Definition M (A : Type) : Type := machine → outcome A * machine.

Definition ret {A} (a : A) : M A := λ s, (Return a, s).

Definition raise {A} (e : exn) : M A := λ s, (Raise e, s).

Definition bind {A B} (m : M A) (k : A → M B) : M B :=
  λ s, match m s with
       | (Return a, s') => k a s'
       | (Raise e, s') => (Raise e, s')
       end.

Notation "x <- m ;; k" := (bind m (λ x, k))
  (at level 100, m at next level, right associativity).
Notation "m >> k" := (bind m (λ _, k))
  (at level 100, right associativity).

(** Loading a global name. *)
Definition load_global (n : string) : M unit :=
  if is_bound n then ret tt else raise (NameError n).

(** [salt.utils.vmware.esxcli(...)]: load the global [salt]; were it
    bound, run the helper on the world and log the invocation. *)
Definition salt_utils_vmware_esxcli (c : EsxcliCall) : M Response :=
  load_global "salt" >>
  λ s, let (r, w') := esxcli c (world s) in
       (Return r, {| world := w'; trace := trace s ++ [c] |}).

(** [for x in items: acc = body(x, acc)]. *)
Fixpoint for_each {A} (body : string → A → M A) (items : list string)
    (acc : A) : M A :=
  match items with
  | [] => ret acc
  | x :: rest => acc' <- body x acc ;; for_each body rest acc'
  end.

(** The items of [for esxi_host in esxi_hosts] (reached for lists only). *)
Definition items_of (v : pyarg) : list string :=
  match v with
  | PyList l => l
  | PyTuple l => l
  | Scalar _ => []
  end.

(** *** get_firewall_status *)

Definition firewall_list_cmd : string := "network firewall ruleset list".

(** The dictionary stored for a host whose invocation failed. *)
Definition error_payload (response : Response) : status_payload :=
  {| Error := Some (stdout response); success := false; rulesets := None |}.

(** Lines 109-121 and 133-145: store the outcome of one invocation under
    [key]. *)
Definition record_status (key : string) (response : Response)
    (result : gmap string status_payload) : M (gmap string status_payload) :=
  if negb (retcode response =? 0) then
    ret (<[key := error_payload response]> result)
  else
    load_global "_format_firewall_stdout" >>
    ret (<[key := format_firewall_stdout response]> result).

(** Lines 98-121: the body of the loop over [esxi_hosts]. *)
Definition status_body (host username password : string)
    (protocol : option string) (port : option Z) (credstore : option string)
    (esxi_host : string) (result : gmap string status_payload)
    : M (gmap string status_payload) :=
  response <- salt_utils_vmware_esxcli
               (mkCall host username password firewall_list_cmd
                       protocol port (Some esxi_host) credstore) ;;
  record_status esxi_host response result.

Definition get_firewall_status (host username password : string)
    (protocol : option string) (port : option Z) (esxi_hosts : pyarg)
    (credstore : option string) : M (gmap string status_payload) :=
  if truthy esxi_hosts then
    if negb (isinstance_list esxi_hosts) then
      load_global "CommandExecutionError" >>
      raise (CommandExecutionError "'esxi_hosts' must be a list.")
    else
      for_each (status_body host username password protocol port credstore)
               (items_of esxi_hosts) ∅
  else
    response <- salt_utils_vmware_esxcli
                 (mkCall host username password firewall_list_cmd
                         protocol port None credstore) ;;
    record_status host response ∅.

(** *** enable_firewall_ruleset *)

(** Line 208. *)
Definition ruleset_cmd (ruleset_enable : scalar) (ruleset_name : string)
    : string :=
  "network firewall ruleset set --enabled " +:+ py_format ruleset_enable
    +:+ " --ruleset-id=" +:+ ruleset_name.

(** Lines 217-228: the body of the loop over [esxi_hosts]. *)
Definition ruleset_body (host username password cmd : string)
    (protocol : option string) (port : option Z) (credstore : option string)
    (esxi_host : string) (result : gmap string Response)
    : M (gmap string Response) :=
  response <- salt_utils_vmware_esxcli
               (mkCall host username password cmd
                       protocol port (Some esxi_host) credstore) ;;
  ret (<[esxi_host := response]> result).

Definition enable_firewall_ruleset (host username password : string)
    (ruleset_enable : scalar) (ruleset_name : string)
    (protocol : option string) (port : option Z) (esxi_hosts : pyarg)
    (credstore : option string) : M (gmap string Response) :=
  let cmd := ruleset_cmd ruleset_enable ruleset_name in
  if truthy esxi_hosts then
    if negb (isinstance_list esxi_hosts) then
      load_global "CommandExecutionError" >>
      raise (CommandExecutionError "'esxi_hosts' must be a list.")
    else
      for_each (ruleset_body host username password cmd protocol port
                             credstore)
               (items_of esxi_hosts) ∅
  else
    response <- salt_utils_vmware_esxcli
                 (mkCall host username password cmd
                         protocol port None credstore) ;;
    ret (<[host := response]> ∅).

(** ** Name resolution *)

Lemma salt_unbound : is_bound "salt" = false.
Proof. reflexivity. Qed.

Lemma format_firewall_stdout_unbound :
  is_bound "_format_firewall_stdout" = false.
Proof. reflexivity. Qed.

Lemma CommandExecutionError_unbound :
  is_bound "CommandExecutionError" = false.
Proof. reflexivity. Qed.

(** ** Single steps *)

(** The helper is out of reach: loading [salt] fails, the helper is not
    run and the machine stays as it was. *)
Lemma esxcli_unreachable c s :
  salt_utils_vmware_esxcli c s = (Raise (NameError "salt"), s).
Proof.
  unfold salt_utils_vmware_esxcli, bind, load_global.
  by rewrite salt_unbound.
Qed.

Lemma record_status_failure key r acc s :
  retcode r ≠ 0 →
  record_status key r acc s = (Return (<[key := error_payload r]> acc), s).
Proof.
  intros Hrc. unfold record_status.
  destruct (retcode r =? 0) eqn:E; [apply Z.eqb_eq in E; done | done].
Qed.

Lemma record_status_success key r acc s :
  retcode r = 0 →
  record_status key r acc s = (Raise (NameError "_format_firewall_stdout"), s).
Proof.
  intros Hrc. unfold record_status. rewrite Hrc. simpl.
  unfold bind, load_global. by rewrite format_firewall_stdout_unbound.
Qed.

Lemma status_body_raises host username password protocol port credstore
    t acc s :
  status_body host username password protocol port credstore t acc s
  = (Raise (NameError "salt"), s).
Proof. unfold status_body, bind. by rewrite esxcli_unreachable. Qed.

Lemma ruleset_body_raises host username password cmd protocol port credstore
    t acc s :
  ruleset_body host username password cmd protocol port credstore t acc s
  = (Raise (NameError "salt"), s).
Proof. unfold ruleset_body, bind. by rewrite esxcli_unreachable. Qed.

(** ** The loop *)

(** An exception in the first pass through the body ends the loop. *)
Lemma for_each_first_raises {A} (body : string → A → M A) x rest acc s e s' :
  body x acc s = (Raise e, s') →
  for_each body (x :: rest) acc s = (Raise e, s').
Proof. intros Hbody. cbn [for_each]. unfold bind. by rewrite Hbody. Qed.

(** ** The branches of the two functions *)

(** A truthy [esxi_hosts] that is not a list reaches the [raise]
    statement, whose class name has no binding. *)
Lemma non_list_raises host username password ruleset_enable ruleset_name
    protocol port esxi_hosts credstore s :
  truthy esxi_hosts = true → isinstance_list esxi_hosts = false →
  get_firewall_status host username password protocol port esxi_hosts
                      credstore s
  = (Raise (NameError "CommandExecutionError"), s)
  ∧ enable_firewall_ruleset host username password ruleset_enable
                            ruleset_name protocol port esxi_hosts credstore s
    = (Raise (NameError "CommandExecutionError"), s).
Proof.
  intros Ht Hl. unfold get_firewall_status, enable_firewall_ruleset.
  rewrite Ht, Hl. simpl. unfold bind, load_global.
  by rewrite CommandExecutionError_unbound.
Qed.

(** Every other [esxi_hosts] leads to the helper, in the loop or in the
    [else] branch, and the call ends where [salt] is loaded. *)
Lemma helper_name_unbound host username password ruleset_enable ruleset_name
    protocol port esxi_hosts credstore s :
  truthy esxi_hosts = false ∨ isinstance_list esxi_hosts = true →
  get_firewall_status host username password protocol port esxi_hosts
                      credstore s
  = (Raise (NameError "salt"), s)
  ∧ enable_firewall_ruleset host username password ruleset_enable
                            ruleset_name protocol port esxi_hosts credstore s
    = (Raise (NameError "salt"), s).
Proof.
  intros Hargs. unfold get_firewall_status, enable_firewall_ruleset.
  destruct (truthy esxi_hosts) eqn:Ht.
  - destruct Hargs as [|Hl]; [done|]. rewrite Hl.
    destruct esxi_hosts as [v|T|T]; try done.
    destruct T as [|t T]; [done|]. cbn [negb items_of]. split.
    + apply for_each_first_raises, status_body_raises.
    + apply for_each_first_raises, ruleset_body_raises.
  - unfold bind. by rewrite !esxcli_unreachable.
Qed.

(** ** Properties of the module *)

(** C1.  With a non-empty list of explicit targets both functions end at
    the first pass through the loop with [NameError] on [salt]: no target
    is invoked and no mapping is returned. *)
Theorem C1_explicit_targets_raise host username password ruleset_enable
    ruleset_name protocol port credstore (t : string) (T : list string) s :
  get_firewall_status host username password protocol port (PyList (t :: T))
    credstore s
  = (Raise (NameError "salt"), s)
  ∧ enable_firewall_ruleset host username password ruleset_enable
      ruleset_name protocol port (PyList (t :: T)) credstore s
    = (Raise (NameError "salt"), s).
Proof. apply helper_name_unbound. by right. Qed.

(** C2.  A bare host name passed for [esxi_hosts] makes both functions
    fail with [NameError] on [CommandExecutionError], before any remote
    invocation, instead of raising the configuration error. *)
Theorem C2_bare_string_targets host username password ruleset_enable
    ruleset_name protocol port credstore s :
  get_firewall_status host username password protocol port
    (Scalar (PyStr "esxi-1.host.com")) credstore s
  = (Raise (NameError "CommandExecutionError"), s)
  ∧ enable_firewall_ruleset host username password ruleset_enable
      ruleset_name protocol port (Scalar (PyStr "esxi-1.host.com"))
      credstore s
    = (Raise (NameError "CommandExecutionError"), s).
Proof. by apply non_list_raises. Qed.


(** C5 (amended).  For [ruleset_enable = True] and [ruleset_name = "syslog"]
    line 208 builds the command string
    [network firewall ruleset set --enabled True --ruleset-id=syslog], which
    contains [enabled True] and [ruleset-id=syslog]. *)
Theorem C5_syslog_toggle :
  ruleset_cmd (PyBool true) "syslog"
  = "network firewall ruleset set --enabled True --ruleset-id=syslog"
  ∧ contains "enabled True" (ruleset_cmd (PyBool true) "syslog") = true
  ∧ contains "ruleset-id=syslog" (ruleset_cmd (PyBool true) "syslog") = true.
Proof. split; [|split]; reflexivity. Qed.

(** C6.  With [esxi_hosts] absent or an empty list both functions end in
    the [else] branch with [NameError] on [salt]: the endpoint is not
    invoked and no mapping is returned. *)
Theorem C6_implicit_target_raises host username password ruleset_enable
    ruleset_name protocol port credstore s :
  get_firewall_status host username password protocol port (Scalar PyNone)
    credstore s
  = (Raise (NameError "salt"), s)
  ∧ get_firewall_status host username password protocol port (PyList [])
      credstore s
    = (Raise (NameError "salt"), s)
  ∧ enable_firewall_ruleset host username password ruleset_enable
      ruleset_name protocol port (Scalar PyNone) credstore s
    = (Raise (NameError "salt"), s)
  ∧ enable_firewall_ruleset host username password ruleset_enable
      ruleset_name protocol port (PyList []) credstore s
    = (Raise (NameError "salt"), s).
Proof.
  destruct (helper_name_unbound host username password ruleset_enable
              ruleset_name protocol port (Scalar PyNone) credstore s)
    as [H1 H2]; [by left|].
  destruct (helper_name_unbound host username password ruleset_enable
              ruleset_name protocol port (PyList []) credstore s)
    as [H3 H4]; [by left|].
  done.
Qed.

(** C7.  [enable_firewall_ruleset] returns no mapping, with explicit targets
    or without: the helper's answer is never obtained, so no payload holds
    it. *)
Theorem C7_ruleset_payload_never_returned host username password
    ruleset_enable ruleset_name protocol port credstore (t : string)
    (T : list string) s :
  (∀ m,
     (enable_firewall_ruleset host username password ruleset_enable
        ruleset_name protocol port (PyList (t :: T)) credstore s).1
     ≠ Return m)
  ∧ (∀ m,
     (enable_firewall_ruleset host username password ruleset_enable
        ruleset_name protocol port (Scalar PyNone) credstore s).1
     ≠ Return m)
  ∧ trace (enable_firewall_ruleset host username password ruleset_enable
             ruleset_name protocol port (PyList (t :: T)) credstore s).2
    = trace s.
Proof.
  destruct (helper_name_unbound host username password ruleset_enable
              ruleset_name protocol port (PyList (t :: T)) credstore s)
    as [_ H1]; [by right|].
  destruct (helper_name_unbound host username password ruleset_enable
              ruleset_name protocol port (Scalar PyNone) credstore s)
    as [_ H2]; [by left|].
  rewrite H1, H2. done.
Qed.

(** C9 (amended).  No statement of the module binds
    [_format_firewall_stdout]; the success branch of [get_firewall_status]
    (lines 119-121 and 143-145), given a response with return code 0,
    raises [NameError] for that name and stores nothing; and no call of
    [get_firewall_status] returns a mapping, hence none returns a parsed
    per-target payload. *)
Theorem C9_status_never_returns_payload host username password protocol port
    esxi_hosts credstore s :
  is_bound "_format_firewall_stdout" = false
  ∧ (∀ key r acc s',
       retcode r = 0 →
       record_status key r acc s'
       = (Raise (NameError "_format_firewall_stdout"), s'))
  ∧ (∀ m,
       (get_firewall_status host username password protocol port esxi_hosts
          credstore s).1 ≠ Return m).
Proof.
  split; [done|]. split; [intros; by apply record_status_success|].
  intros m.
  destruct (truthy esxi_hosts) eqn:Ht;
    [destruct (isinstance_list esxi_hosts) eqn:Hl|].
  - destruct (helper_name_unbound host username password PyNone ""
                protocol port esxi_hosts credstore s) as [-> _]; [by right|].
    done.
  - destruct (non_list_raises host username password PyNone "" protocol port
                esxi_hosts credstore s Ht Hl) as [-> _].
    done.
  - destruct (helper_name_unbound host username password PyNone ""
                protocol port esxi_hosts credstore s) as [-> _]; [by left|].
    done.
Qed.

(** C10.  [CommandExecutionError] has no binding in the module, and
    whenever [esxi_hosts] is truthy but not a list both functions fail
    with [NameError] for that name, having made no remote invocation. *)
Theorem C10_non_list_targets_name_error host username password
    ruleset_enable ruleset_name protocol port esxi_hosts credstore s :
  truthy esxi_hosts = true → isinstance_list esxi_hosts = false →
  is_bound "CommandExecutionError" = false
  ∧ get_firewall_status host username password protocol port esxi_hosts
      credstore s
    = (Raise (NameError "CommandExecutionError"), s)
  ∧ enable_firewall_ruleset host username password ruleset_enable
      ruleset_name protocol port esxi_hosts credstore s
    = (Raise (NameError "CommandExecutionError"), s).
Proof. intros Ht Hl. split; [done|]. by apply non_list_raises. Qed.

(** ** Further properties of the two functions *)

(** X6.  Every call of either function ends with [NameError] and leaves
    the machine as it was, no remote invocation made: the name is
    [CommandExecutionError] when [esxi_hosts] is truthy and not a list, and
    [salt] otherwise.  Neither function raises [CommandExecutionError] or
    returns. *)
Theorem exceptions_are_name_errors host username password ruleset_enable
    ruleset_name protocol port esxi_hosts credstore s :
  let unbound :=
    if truthy esxi_hosts && negb (isinstance_list esxi_hosts)
    then "CommandExecutionError" else "salt" in
  get_firewall_status host username password protocol port esxi_hosts
    credstore s
  = (Raise (NameError unbound), s)
  ∧ enable_firewall_ruleset host username password ruleset_enable
      ruleset_name protocol port esxi_hosts credstore s
    = (Raise (NameError unbound), s).
Proof.
  intros unbound. unfold unbound.
  destruct (truthy esxi_hosts) eqn:Ht;
    [destruct (isinstance_list esxi_hosts) eqn:Hl|]; simpl.
  - apply helper_name_unbound. by right.
  - by apply non_list_raises.
  - apply helper_name_unbound. by left.
Qed.

End Firewall.

Arguments mkMachine {W} world trace.
Arguments world {W} m.
Arguments trace {W} m.
Arguments get_firewall_status {W} esxcli format_firewall_stdout
  host username password protocol port esxi_hosts credstore _.
Arguments enable_firewall_ruleset {W} esxcli
  host username password ruleset_enable ruleset_name protocol port
  esxi_hosts credstore _.
Arguments record_status {W} format_firewall_stdout key response result _.

(** ** The properties at sample calls *)



(** C4.  With targets that would answer a non-zero return code, the status
    query ends with [NameError] on [salt] before any of them is invoked:
    no failure payload is recorded and nothing is returned, with explicit
    targets or without. *)
Theorem C4_failed_target_not_recorded :
  get_firewall_status (constant_esxcli unreachable) sample_format
    "vcenter" "root" "pw" None None (PyList ["esxi-1"; "esxi-2"]) None
    (mkMachine tt [])
  = (Raise (NameError "salt"), mkMachine tt [])
  ∧ get_firewall_status (constant_esxcli unreachable) sample_format
      "host1" "root" "pw" None None (Scalar PyNone) None (mkMachine tt [])
    = (Raise (NameError "salt"), mkMachine tt []).
Proof. split; reflexivity. Qed.

(** C5, as stated, fails: [str.format] renders the boolean as [True], so
    the command string built for the toggle does not contain
    [enabled true]. *)
Lemma C5_counterexample :
  contains "enabled true" (ruleset_cmd (PyBool true) "syslog") = false.
Proof. reflexivity. Qed.

(** C8.  With explicit targets [A] and [B], where [A] would answer return
    code 0 with the rule-set table, the status query ends with [NameError]
    on [salt] before [A] is invoked: no table is received, let alone
    parsed, and nothing is returned. *)
Theorem C8_status_listing_not_parsed :
  get_firewall_status esxcli_A_up sample_format
    "vcenter" "root" "pw" None None (PyList ["A"; "B"]) None (mkMachine tt [])
  = (Raise (NameError "salt"), mkMachine tt []).
Proof. reflexivity. Qed.

(** C9, as stated, fails: with an endpoint, or a listed target, that would
    answer return code 0, evaluation does not reach the call of
    [_format_firewall_stdout]; the [NameError] raised is the one for
    [salt], and no invocation has been made. *)
Lemma C9_counterexample :
  get_firewall_status (constant_esxcli listing_ok) sample_format
    "host1" "root" "pw" None None (Scalar PyNone) None (mkMachine tt [])
  = (Raise (NameError "salt"), mkMachine tt [])
  ∧ get_firewall_status esxcli_A_up sample_format
      "vcenter" "root" "pw" None None (PyList ["A"]) None (mkMachine tt [])
    = (Raise (NameError "salt"), mkMachine tt [])
  ∧ NameError "salt" ≠ NameError "_format_firewall_stdout".
Proof. split; [|split]; [reflexivity|reflexivity|discriminate]. Qed.

Lemma C9_status_never_returns_payload_witness :
  retcode listing_ok = 0
  ∧ record_status sample_format "host1" listing_ok ∅ (mkMachine tt [])
    = (Raise (NameError "_format_firewall_stdout"), mkMachine tt [])
  ∧ ∀ m,
      (get_firewall_status (constant_esxcli listing_ok) sample_format
         "host1" "root" "pw" None None (Scalar PyNone) None
         (mkMachine tt [])).1 ≠ Return m.
Proof.
  destruct (C9_status_never_returns_payload unit (constant_esxcli listing_ok)
              sample_format "host1" "root" "pw" None None (Scalar PyNone)
              None (mkMachine tt [])) as (_ & Hbranch & Hnever).
  split; [reflexivity|]. split; [|exact Hnever].
  exact (Hbranch "host1" listing_ok ∅ (mkMachine tt []) eq_refl).
Defined.

Lemma C10_non_list_targets_name_error_witness :
  truthy (PyTuple ["esxi-1"; "esxi-2"]) = true
  ∧ isinstance_list (PyTuple ["esxi-1"; "esxi-2"]) = false
  ∧ get_firewall_status (constant_esxcli listing_ok) sample_format
      "vcenter" "root" "pw" None None (PyTuple ["esxi-1"; "esxi-2"]) None
      (mkMachine tt [])
    = (Raise (NameError "CommandExecutionError"), mkMachine tt [])
  ∧ enable_firewall_ruleset (constant_esxcli listing_ok)
      "vcenter" "root" "pw" (PyBool true) "syslog" None None
      (PyTuple ["esxi-1"; "esxi-2"]) None (mkMachine tt [])
    = (Raise (NameError "CommandExecutionError"), mkMachine tt []).
Proof.
  split; [reflexivity|]. split; [reflexivity|].
  apply (C10_non_list_targets_name_error unit (constant_esxcli listing_ok)
           sample_format "vcenter" "root" "pw" (PyBool true) "syslog"
           None None (PyTuple ["esxi-1"; "esxi-2"]) None (mkMachine tt []));
    reflexivity.
Defined.

(** ** The command string *)

(** X9.  With a boolean flag, different toggles send different commands:
    the command string determines the flag and the rule-set name. *)
Theorem ruleset_cmd_bool_inj (b1 b2 : bool) (n1 n2 : string) :
  ruleset_cmd (PyBool b1) n1 = ruleset_cmd (PyBool b2) n2 →
  b1 = b2 ∧ n1 = n2.
Proof.
  unfold ruleset_cmd. intros H. apply (inj (String.app _)) in H.
  destruct b1, b2; cbv [py_format String.append] in H; simplify_eq; done.
Qed.

Lemma ruleset_cmd_bool_inj_witness :
  ruleset_cmd (PyBool false) "sshServer" = ruleset_cmd (PyBool false) "sshServer"
  ∧ false = false ∧ "sshServer" = "sshServer".
Proof.
  split; [reflexivity|].
  exact (ruleset_cmd_bool_inj false false "sshServer" "sshServer" eq_refl).
Defined.

(** ** Module initialisation *)

(** The test of lines 22-26 on a well-formed [sys.version_info]. *)
Lemma incompatible_python_spec versionMap (major minor micro : Z)
    (level : string) (serial : Z) :
  incompatible_python versionMap
    [EInt major; EInt minor; EInt micro; EStr level; EInt serial]
  = Some (bool_decide (is_Some (versionMap !! "vim25/6.0"))
          && (major =? 2) && (minor =? 7) && (micro <? 9)).
Proof.
  unfold incompatible_python, tuple_gt. cbn [tuple_lt elem_eqb elem_lt].
  destruct (bool_decide (is_Some (versionMap !! "vim25/6.0"))); [|done].
  rewrite (Z.eqb_sym 2 major), (Z.eqb_sym 7 minor). simpl.
  destruct (Z.eqb_spec major 2) as [->|Hmaj]; simpl.
  - destruct (Z.eqb_spec minor 7) as [->|Hmin]; simpl.
    + destruct (Z.eqb_spec micro 9) as [->|Hmic]; [done|done].
    + destruct (Z.ltb_spec 7 minor); [|done].
      destruct (Z.ltb_spec minor 7); [lia|done].
  - destruct (Z.ltb_spec 2 major); [|done].
    destruct (Z.ltb_spec major 2); [lia|done].
Qed.

(** X10.  With the five fields [sys.version_info] has, importing the module
    never fails.  [HAS_PYVMOMI] becomes [True] exactly when pyVmomi imports
    and it is not the case that pyVmomi knows [vim25/6.0] while Python is
    2.7.0 to 2.7.8; the debug line is logged exactly in that excluded case,
    and not when pyVmomi itself is missing. *)
Theorem module_init_gate (py : interpreter) (major minor micro : Z)
    (level : string) (serial : Z) :
  version_info py
  = [EInt major; EInt minor; EInt micro; EStr level; EInt serial] →
  let blocked :=
    ∃ versionMap, pyVmomi py = Some versionMap
      ∧ is_Some (versionMap !! "vim25/6.0")
      ∧ major = 2 ∧ minor = 7 ∧ micro < 9 in
  ∃ has log,
    module_init py = Some (has, log)
    ∧ (has = true ↔ is_Some (pyVmomi py) ∧ ¬ blocked)
    ∧ (log = [incompatible_message] ↔ blocked)
    ∧ (log = [] ↔ ¬ blocked).
Proof.
  intros Hvi blocked. unfold module_init. rewrite Hvi.
  destruct (pyVmomi py) as [vm|] eqn:Hpy.
  - rewrite incompatible_python_spec.
    set (b := bool_decide (is_Some (vm !! "vim25/6.0"))
              && (major =? 2) && (minor =? 7) && (micro <? 9)).
    assert (blocked ↔ b = true) as Hblocked.
    { unfold blocked, b. rewrite !andb_true_iff, bool_decide_eq_true.
      rewrite !Z.eqb_eq, Z.ltb_lt. split.
      - intros (vm' & Hvm & Hkey & ? & ? & ?). by simplify_eq.
      - intros [[[Hkey ?] ?] ?]. exists vm. done. }
    destruct b.
    + exists false, [incompatible_message]. split; [done|].
      rewrite Hblocked. intuition (eauto; congruence).
    + exists true, []. split; [done|].
      rewrite Hblocked. intuition (eauto; congruence).
  - exists false, []. split; [done|].
    assert (¬ blocked) as Hn.
    { by intros (vm' & Hvm & _). }
    split; [|split]; [|intuition congruence|intuition congruence].
    split; [done|]. intros [[? ?] _]. done.
Qed.

Lemma module_init_gate_witness :
  version_info python_2_7_5
  = [EInt 2; EInt 7; EInt 5; EStr "final"; EInt 0]
  ∧ module_init python_2_7_5 = Some (false, [incompatible_message])
  ∧ version_info python_3_10
    = [EInt 3; EInt 10; EInt 4; EStr "final"; EInt 0]
  ∧ ∃ has log,
      module_init python_3_10 = Some (has, log)
      ∧ (has = true ↔
         is_Some (pyVmomi python_3_10)
         ∧ ¬ ∃ versionMap, pyVmomi python_3_10 = Some versionMap
               ∧ is_Some (versionMap !! "vim25/6.0")
               ∧ 3 = 2 ∧ 10 = 7 ∧ 4 < 9).
Proof.
  split; [reflexivity|]. split; [|split; [reflexivity|]].
  - destruct (module_init_gate python_2_7_5 2 7 5 "final" 0 eq_refl)
      as (has & log & Hinit & _ & Hlog & _).
    assert (log = [incompatible_message]) as ->.
    { apply Hlog. exists vsphere_6_versions.
      split; [reflexivity|]. split; [by eexists|]. lia. }
    rewrite Hinit. f_equal. f_equal.
    vm_compute in Hinit. by simplify_eq.
  - destruct (module_init_gate python_3_10 3 10 4 "final" 0 eq_refl)
      as (has & log & Hinit & Hhas & _).
    by exists has, log.
Defined.
